(** * Verification of [get_screen] (My-Code/utils.py)

    [get_screen(env, device, h=80, w=80)] renders the environment, resizes the
    frame, converts it to a tensor, reorders its axes, adds a batch axis and
    moves the tensor to a device:

<<
      k = env.render(mode='rgb_array')
      k = resize(k, (h, w), anti_aliasing=False)
      k = torch.Tensor(k)
      k = k.permute(2,1,0).unsqueeze(0)
      k = k.to(device)
      return k
>>

    Python exceptions are modelled by an error monad; arrays and tensors by
    records carrying their shape and their flat storage; the three libraries
    the function calls are either modelled (the tensor views) or taken as
    parameters (the renderer, the resize routine, the float32 rounding and
    the availability of devices). *)

From Stdlib Require Import String Ascii.
From Stdlib Require Import List ZArith Lia Bool Arith PeanoNat.
Import ListNotations.

Set Implicit Arguments.

(** ** Exceptions *)

(** A raised Python exception: its class and its message. *)
Record exn : Type := Raise { exn_class : string; exn_msg : string }.

(** The outcome of a Python call: a value, or a raised exception. *)
Inductive result (A : Type) : Type :=
| Ok (a : A)
| Err (e : exn).

Arguments Ok {A} a.
Arguments Err {A} e.

(** Sequencing of statements: an exception raised by [c] skips [k]. *)
Definition bind {A B : Type} (c : result A) (k : A -> result B) : result B :=
  match c with
  | Ok a => k a
  | Err e => Err e
  end.

Declare Scope py_scope.
Delimit Scope py_scope with py.
Notation "x <- c ;; k" := (bind c (fun x => k))
  (at level 61, c at next level, right associativity) : py_scope.

(** ** Arrays and tensors *)

(** Element types of numpy arrays and torch tensors. [dt_object] stands for
    the numpy element types torch cannot convert. *)
Inductive dtype : Type :=
| dt_bool | dt_uint8 | dt_int8 | dt_int16 | dt_int32 | dt_int64
| dt_float16 | dt_float32 | dt_float64 | dt_object.

(** Where a tensor is stored. *)
Inductive device : Type :=
| cpu
| cuda (index : nat).

(** A numpy array: element type, shape, and the elements in row-major order. *)
Record ndarray (V : Type) : Type := mk_ndarray {
  a_dtype : dtype;
  a_shape : list nat;
  a_data : list V
}.

(** A torch tensor is a strided view of a storage: the element at index
    [i_0, ..., i_n] is the storage cell [t_offset + sum (i_d * stride_d)]. *)
Record Tensor (V : Type) : Type := mk_Tensor {
  t_dtype : dtype;
  t_device : device;
  t_sizes : list nat;
  t_strides : list nat;
  t_offset : nat;
  t_storage : list V
}.

(** Row-major strides of a shape: the stride of an axis is the number of
    elements of the axes to its right. *)
Fixpoint c_strides (shape : list nat) : list nat :=
  match shape with
  | [] => []
  | _ :: rest => fold_right Nat.mul 1 rest :: c_strides rest
  end.

(** The storage cell of an index under given strides. *)
Fixpoint flat_index (strides idx : list nat) : nat :=
  match strides, idx with
  | s :: strides', i :: idx' => i * s + flat_index strides' idx'
  | _, _ => 0
  end.

(** An index is valid when it has one coordinate per axis, each below the
    size of its axis. *)
Fixpoint in_bounds (sizes idx : list nat) : bool :=
  match sizes, idx with
  | [], [] => true
  | n :: sizes', i :: idx' => (i <? n) && in_bounds sizes' idx'
  | _, _ => false
  end.

(** The element of [a] at a full index of non-negative coordinates, one per
    axis; [None] stands for the IndexError of a coordinate beyond its axis.
    Partial and negative indices are not modelled. *)
Definition aget {V} (a : ndarray V) (idx : list nat) : option V :=
  if in_bounds (a_shape a) idx
  then nth_error (a_data a) (flat_index (c_strides (a_shape a)) idx)
  else None.

(** The element of [t] at a full index of non-negative coordinates, one per
    axis; [None] stands for the IndexError of a coordinate beyond its axis.
    Partial indices (which select a sub-tensor) and negative indices are not
    modelled. *)
Definition tget {V} (t : Tensor V) (idx : list nat) : option V :=
  if in_bounds (t_sizes t) idx
  then nth_error (t_storage t) (t_offset t + flat_index (t_strides t) idx)
  else None.

(** The element types [torch.Tensor] accepts from a numpy array. *)
Definition torch_supported (d : dtype) : bool :=
  match d with
  | dt_object => false
  | _ => true
  end.

Definition is_floating (d : dtype) : bool :=
  match d with
  | dt_float16 | dt_float32 | dt_float64 => true
  | _ => false
  end.

(** [dims] is a permutation of [0 .. n-1]. *)
Definition is_permutation (n : nat) (dims : list nat) : bool :=
  (length dims =? n)
  && forallb (fun d => d <? n) dims
  && forallb (fun d => count_occ Nat.eq_dec dims d =? 1) dims.

(** [insert_at i x l]: [l] with [x] inserted before position [i]. *)
Definition insert_at {A} (i : nat) (x : A) (l : list A) : list A :=
  firstn i l ++ x :: skipn i l.

Section TensorViews.
Context {V : Type}.

(** [t.permute(dims)]: a view of the same storage whose axis [a] is the
    axis [dims[a]] of [t]. *)
Definition permute (t : Tensor V) (dims : list nat) : result (Tensor V) :=
  if is_permutation (length (t_sizes t)) dims
  then Ok {| t_dtype := t_dtype t;
             t_device := t_device t;
             t_sizes := map (fun d => nth d (t_sizes t) 0) dims;
             t_strides := map (fun d => nth d (t_strides t) 0) dims;
             t_offset := t_offset t;
             t_storage := t_storage t |}
  else Err (Raise "RuntimeError" "permute: dims do not match the tensor").

(** [t.unsqueeze(dim)]: a view of the same storage with an axis of size 1
    inserted at position [dim]. *)
Definition unsqueeze (t : Tensor V) (dim : nat) : result (Tensor V) :=
  if dim <=? length (t_sizes t)
  then Ok {| t_dtype := t_dtype t;
             t_device := t_device t;
             t_sizes := insert_at dim 1 (t_sizes t);
             t_strides :=
               insert_at dim
                 (if dim <? length (t_sizes t)
                  then nth dim (t_sizes t) 0 * nth dim (t_strides t) 0
                  else 1)
                 (t_strides t);
             t_offset := t_offset t;
             t_storage := t_storage t |}
  else Err (Raise "IndexError" "Dimension out of range").

End TensorViews.

(** A numpy array holds exactly one element per index of its shape. *)
Definition array_wf {V} (a : ndarray V) : Prop :=
  length (a_data a) = fold_right Nat.mul 1 (a_shape a).

(** ** The collaborators *)

(** A gym environment, as far as [get_screen] uses it: [render mode] is the
    outcome of [env.render(mode=mode)] in the environment's current state. *)
Record Env (V : Type) : Type := mk_Env {
  render : string -> result (ndarray V)
}.

(** The type of [skimage.transform.resize]: image, output shape (h, w) and
    the [anti_aliasing] flag. *)
Definition resize_fn (V : Type) : Type :=
  ndarray V -> Z * Z -> bool -> result (ndarray V).

(** What the function takes from the libraries it imports and from the
    machine it runs on, over pixel values of type [V]. *)
Class Libraries (V : Type) : Type := {
  (** [skimage.transform.resize] *)
  resize : resize_fn V;
  (** rounding of an array element of the given element type to float32 *)
  float32_of : dtype -> V -> V;
  (** the exception a transfer to a device raises, if any (an unknown or
      unavailable device) *)
  device_error : device -> option exn
}.

Section TensorLibrary.
Context {V : Type} {L : Libraries V}.

(** [torch.Tensor(a)] for a numpy array [a]: a fresh contiguous tensor of
    the default tensor type (torch.FloatTensor: float32, on the CPU) with
    the shape of [a] and its elements rounded to float32. *)
Definition torch_Tensor (a : ndarray V) : result (Tensor V) :=
  if torch_supported (a_dtype a)
  then Ok {| t_dtype := dt_float32;
             t_device := cpu;
             t_sizes := a_shape a;
             t_strides := c_strides (a_shape a);
             t_offset := 0;
             t_storage := map (float32_of (a_dtype a)) (a_data a) |}
  else Err (Raise "TypeError" "can't convert np.ndarray of this type").

(** [t.to(device)]: the same tensor, stored on [device]. *)
Definition tensor_to (t : Tensor V) (d : device) : result (Tensor V) :=
  match device_error d with
  | Some e => Err e
  | None => Ok {| t_dtype := t_dtype t;
                  t_device := d;
                  t_sizes := t_sizes t;
                  t_strides := t_strides t;
                  t_offset := t_offset t;
                  t_storage := t_storage t |}
  end.

End TensorLibrary.

(** ** The contract of the resize routine *)

(** Modelled from the spec: the resize routine is a library that is not part
    of the repository. For an image of shape (H0, W0, C) it resizes
    "spatially to exactly (requested height, requested width), channel count
    unchanged", it yields "floating-point intensities", and it does so for
    positive targets "regardless of the renderer's native resolution". *)
Record ResizeContract (V : Type) (resize : resize_fn V) : Prop := {
  resize_shape :
    forall a h w aa r H0 W0 C,
      a_shape a = [H0; W0; C] ->
      resize a (h, w) aa = Ok r ->
      a_shape r = [Z.to_nat h; Z.to_nat w; C] /\ is_floating (a_dtype r) = true;
  resize_defined :
    forall a h w aa H0 W0 C,
      a_shape a = [H0; W0; C] -> (0 < h)%Z -> (0 < w)%Z ->
      exists r, resize a (h, w) aa = Ok r
}.

(** ** The function *)

(** The defaults of the keyword parameters: [h=80, w=80]. *)
Definition h_default : Z := 80.
Definition w_default : Z := 80.

Section GetScreen.
Context {V : Type} {L : Libraries V}.

(** The body of [get_screen], with [h] and [w] bound. *)
Definition get_screen (env : Env V) (dev : device) (h w : Z)
  : result (Tensor V) :=
  (k <- render env "rgb_array" ;;
   k <- resize k (h, w) false ;;
   k <- torch_Tensor k ;;
   k <- (p <- permute k [2; 1; 0] ;; unsqueeze p 0) ;;
   k <- tensor_to k dev ;;
   Ok k)%py.

(** A call [get_screen(env, device[, h][, w])]: an argument that is left
    out takes its default. *)
Definition get_screen_call (env : Env V) (dev : device) (h w : option Z)
  : result (Tensor V) :=
  get_screen env dev
    (match h with Some v => v | None => h_default end)
    (match w with Some v => v | None => w_default end).

(** The statements after the resize step, for a resized array [r]. *)
Definition after_resize (dev : device) (r : ndarray V) : result (Tensor V) :=
  (k <- torch_Tensor r ;;
   k <- (p <- permute k [2; 1; 0] ;; unsqueeze p 0) ;;
   k <- tensor_to k dev ;;
   Ok k)%py.

End GetScreen.

(** ** Concrete collaborators

    A small instance of the parameters, on integer pixel values, on which
    the function can be run. *)

(** A 2 x 2 RGB frame. *)
Definition sample_frame : ndarray Z :=
  {| a_dtype := dt_uint8;
     a_shape := [2; 2; 3];
     a_data := [10; 20; 30; 40; 50; 60; 70; 80; 90; 100; 110; 120]%Z |}.

(** An environment that renders [sample_frame]. *)
Definition sample_env : Env Z :=
  {| render := fun mode =>
       if String.eqb mode "rgb_array" then Ok sample_frame
       else Err (Raise "NotImplementedError" "render mode") |}.

(** An environment that renders a gray 2 x 2 frame, without a channel
    axis. *)
Definition gray_env : Env Z :=
  {| render := fun _ =>
       Ok {| a_dtype := dt_uint8;
             a_shape := [2; 2];
             a_data := [10; 20; 30; 40]%Z |} |}.

(** An environment that has been closed: rendering raises. *)
Definition closed_env : Env Z :=
  {| render := fun _ => Err (Raise "RuntimeError" "environment is closed") |}.

(** The data of the nearest-neighbour resize of an (H0, W0, C) image to
    (h, w, C); with [aa] every sample is averaged with the next one. *)
Definition nn_data (data : list Z) (H0 W0 C h w : nat) (aa : bool) : list Z :=
  let src n :=
    let y := n / (w * C) in
    let x := (n / C) mod w in
    let c := n mod C in
    ((y * H0 / h) * W0 + x * W0 / w) * C + c in
  let sample n := nth (src n) data 0%Z in
  map (fun n =>
         if aa then ((sample n + sample (n + C)%nat) / 2)%Z else sample n)
      (seq 0 (h * w * C)).

(** Nearest-neighbour resize of a colour image (H0, W0, C) or of a gray
    image (H0, W0). Non-positive targets are refused. *)
Definition nn_resize : resize_fn Z := fun a out aa =>
  let '(h, w) := out in
  if ((h <=? 0) || (w <=? 0))%Z
  then Err (Raise "ValueError" "output shape must be positive")
  else
    let h' := Z.to_nat h in
    let w' := Z.to_nat w in
    match a_shape a with
    | [H0; W0; C] =>
        Ok {| a_dtype := dt_float64;
              a_shape := [h'; w'; C];
              a_data := nn_data (a_data a) H0 W0 C h' w' aa |}
    | [H0; W0] =>
        Ok {| a_dtype := dt_float64;
              a_shape := [h'; w'];
              a_data := nn_data (a_data a) H0 W0 1 h' w' aa |}
    | _ => Err (Raise "ValueError" "expected an image")
    end.

(** A resize that validates nothing: a target of height or width 0 yields an
    array with an empty axis. *)
Definition lax_resize : resize_fn Z := fun a out aa =>
  let '(h, w) := out in
  match a_shape a with
  | [H0; W0; C] =>
      Ok {| a_dtype := dt_float64;
            a_shape := [Z.to_nat h; Z.to_nat w; C];
            a_data := repeat 0%Z (Z.to_nat h * Z.to_nat w * C) |}
  | _ => Err (Raise "ValueError" "expected an image with channels")
  end.

(** No rounding on the integer instance. *)
Definition keep_value : dtype -> Z -> Z := fun _ v => v.

(** A machine with the CPU and one GPU. *)
Definition one_gpu (d : device) : option exn :=
  match d with
  | cpu | cuda 0 => None
  | cuda _ => Some (Raise "RuntimeError" "CUDA error: invalid device ordinal")
  end.


(** The sample libraries: nearest-neighbour resize, no rounding, one GPU. *)
Definition sample_libs : Libraries Z :=
  {| resize := nn_resize; float32_of := keep_value; device_error := one_gpu |}.

(** The same with the resize that validates nothing. *)
Definition lax_libs : Libraries Z :=
  {| resize := lax_resize; float32_of := keep_value; device_error := one_gpu |}.

(** The tensor of the call [get_screen(sample_env, cpu, 1, 2)] under the
    sample libraries: the first row of the frame, as a view of shape
    (1, 3, 2, 1). *)
Definition sample_screen : Tensor Z :=
  {| t_dtype := dt_float32;
     t_device := cpu;
     t_sizes := [1; 3; 2; 1];
     t_strides := [3; 1; 3; 6];
     t_offset := 0;
     t_storage := [10; 20; 30; 40; 50; 60]%Z |}.

(** A tensor of shape (2, 2, 3) holding [sample_frame]. *)
Definition sample_tensor : Tensor Z :=
  {| t_dtype := dt_float32;
     t_device := cpu;
     t_sizes := [2; 2; 3];
     t_strides := [6; 3; 1];
     t_offset := 0;
     t_storage := a_data sample_frame |}.

(** ** Auxiliary facts *)

Unset Implicit Arguments.

Lemma bind_Ok_inv (A B : Type) (c : result A) (k : A -> result B) (b : B) :
  bind c k = Ok b -> exists a, c = Ok a /\ k a = Ok b.
Proof.
  destruct c as [a | e]; simpl; intro H; [eauto | discriminate].
Qed.

(** Inversion of a successful sequence of statements, one step at a time:
    [bind_inv H a Ha] names the value [a] of the first statement and the
    equation [Ha] that gives it, and leaves the rest of the sequence in [H]. *)
Ltac bind_inv H a Ha :=
  apply bind_Ok_inv in H; destruct H as (a & Ha & H).

Lemma in_bounds_rev3 (h w c i j k : nat) :
  in_bounds [c; w; h] [k; j; i] = in_bounds [h; w; c] [i; j; k].
Proof.
  simpl. destruct (i <? h), (j <? w), (k <? c); reflexivity.
Qed.

Lemma flat_index_rev3 (strides : list nat) (i j k : nat) :
  flat_index [nth 2 strides 0; nth 1 strides 0; nth 0 strides 0] [k; j; i]
  = flat_index strides [i; j; k].
Proof.
  destruct strides as [| s0 [| s1 [| s2 [| s3 rest]]]]; simpl; lia.
Qed.

Lemma is_permutation_210 (sizes : list nat) :
  is_permutation (length sizes) [2; 1; 0] = true <-> length sizes = 3.
Proof.
  split.
  - unfold is_permutation. intro H.
    apply andb_true_iff in H. destruct H as [H _].
    apply andb_true_iff in H. destruct H as [H _].
    apply Nat.eqb_eq in H. simpl in H. congruence.
  - intro H. rewrite H. reflexivity.
Qed.

Lemma length3 (A : Type) (l : list A) :
  length l = 3 -> exists a b c, l = [a; b; c].
Proof.
  destruct l as [| a [| b [| c [| d l']]]]; simpl; intro H; try discriminate.
  eauto.
Qed.

Section Properties.
Context {V : Type} {L : Libraries V}.

(** [get_screen] is the render step, the resize step with the smoothing
    filter off, and then the tensor steps. *)
Lemma get_screen_unfold (env : Env V) (dev : device) (h w : Z) :
  get_screen env dev h w
  = (k <- render env "rgb_array" ;;
     k <- resize k (h, w) false ;;
     after_resize dev k)%py.
Proof. reflexivity. Qed.

Lemma get_screen_Ok_inv (env : Env V) (dev : device) (h w : Z)
      (t : Tensor V) :
  get_screen env dev h w = Ok t ->
  exists frame r,
    render env "rgb_array" = Ok frame
    /\ resize frame (h, w) false = Ok r
    /\ after_resize dev r = Ok t.
Proof.
  rewrite get_screen_unfold. intro H.
  bind_inv H frame Hrender. bind_inv H r Hresize. eauto.
Qed.

(** The tensor the steps after the resize build from a resized array of
    shape (hh, ww, cc). *)
Lemma after_resize_Ok (dev : device) (r : ndarray V) (hh ww cc : nat) :
  a_shape r = [hh; ww; cc] ->
  torch_supported (a_dtype r) = true ->
  device_error dev = None ->
  after_resize dev r
  = Ok {| t_dtype := dt_float32;
          t_device := dev;
          t_sizes := [1; cc; ww; hh];
          t_strides := [cc * 1; 1; cc * 1; ww * (cc * 1)];
          t_offset := 0;
          t_storage := map (float32_of (a_dtype r)) (a_data r) |}.
Proof.
  intros Hs Hd Hdev.
  unfold after_resize, torch_Tensor.
  rewrite Hd. simpl. unfold permute. simpl. rewrite Hs. simpl.
  unfold tensor_to. rewrite Hdev. reflexivity.
Qed.

Lemma after_resize_Ok_inv (dev : device) (r : ndarray V) (t : Tensor V) :
  after_resize dev r = Ok t ->
  exists hh ww cc,
    a_shape r = [hh; ww; cc]
    /\ torch_supported (a_dtype r) = true
    /\ device_error dev = None.
Proof.
  unfold after_resize. intro H.
  bind_inv H t0 Hconv. bind_inv H t2 Hview. bind_inv Hview t1 Hperm.
  bind_inv H t3 Hto.
  unfold torch_Tensor in Hconv.
  destruct (torch_supported (a_dtype r)) eqn:Hd; [| discriminate].
  injection Hconv as <-.
  unfold permute in Hperm. simpl in Hperm.
  destruct (is_permutation (length (a_shape r)) [2; 1; 0]) eqn:Hp;
    [| discriminate].
  apply is_permutation_210 in Hp. apply length3 in Hp.
  destruct Hp as (hh & ww & cc & Hs).
  unfold tensor_to in Hto.
  destruct (device_error dev) eqn:Hdev; [discriminate |].
  exists hh, ww, cc. auto.
Qed.

(** A successful call, step by step: the frame, the resized array and
    the tensor built from it. *)
Lemma get_screen_Ok_form (env : Env V) (dev : device) (h w : Z)
      (t : Tensor V) :
  get_screen env dev h w = Ok t ->
  exists frame r hh ww cc,
    render env "rgb_array" = Ok frame
    /\ resize frame (h, w) false = Ok r
    /\ a_shape r = [hh; ww; cc]
    /\ device_error dev = None
    /\ t = {| t_dtype := dt_float32;
              t_device := dev;
              t_sizes := [1; cc; ww; hh];
              t_strides := [cc * 1; 1; cc * 1; ww * (cc * 1)];
              t_offset := 0;
              t_storage := map (float32_of (a_dtype r)) (a_data r) |}.
Proof.
  intro H.
  destruct (get_screen_Ok_inv _ _ _ _ _ H) as (frame & r & Hrender & Hresize & Hrest).
  destruct (after_resize_Ok_inv _ _ _ Hrest) as (hh & ww & cc & Hs & Hd & Hdev).
  rewrite (after_resize_Ok _ _ _ _ _ Hs Hd Hdev) in Hrest.
  injection Hrest as <-.
  exists frame, r, hh, ww, cc. auto.
Qed.

(** A call on a rendered frame of shape (H0, W0, C) with positive targets,
    a resize routine that meets its contract and an available device
    returns the tensor built from the resized array. *)
Lemma get_screen_Ok (env : Env V) (dev : device) (h w : Z)
      (frame : ndarray V) (H0 W0 C : nat) :
  ResizeContract resize ->
  device_error dev = None ->
  render env "rgb_array" = Ok frame ->
  a_shape frame = [H0; W0; C] ->
  (0 < h)%Z -> (0 < w)%Z ->
  exists r,
    resize frame (h, w) false = Ok r
    /\ get_screen env dev h w
       = Ok {| t_dtype := dt_float32;
               t_device := dev;
               t_sizes := [1; C; Z.to_nat w; Z.to_nat h];
               t_strides := [C * 1; 1; C * 1; Z.to_nat w * (C * 1)];
               t_offset := 0;
               t_storage := map (float32_of (a_dtype r)) (a_data r) |}.
Proof.
  intros HC Hdev Hrender Hs Hh Hw.
  destruct (@resize_defined V resize HC frame h w false H0 W0 C Hs Hh Hw)
    as (r & Hresize).
  destruct (@resize_shape V resize HC frame h w false r H0 W0 C Hs Hresize)
    as (Hrs & Hfl).
  exists r. split; [exact Hresize |].
  rewrite get_screen_unfold, Hrender. simpl. rewrite Hresize. simpl.
  apply after_resize_Ok; auto.
  destruct (a_dtype r); simpl in *; congruence.
Qed.

(** ** The claims *)

(** C1. For every environment whose render returns a pixel array of shape
    (H0, W0, 3) and all positive targets h and w, [get_screen] returns a
    tensor with four axes, of shape (1, 3, w, h): batch, channels, width,
    height. The two spatial axes are swapped with respect to the (h, w)
    resize target: when h and w differ the shape is not (1, 3, h, w).
    The call returns provided the resize routine meets its contract and
    the device is available. *)
Theorem get_screen_shape (env : Env V) (dev : device) (h w : Z)
        (frame : ndarray V) (H0 W0 : nat) :
  ResizeContract resize ->
  device_error dev = None ->
  render env "rgb_array" = Ok frame ->
  a_shape frame = [H0; W0; 3] ->
  (0 < h)%Z -> (0 < w)%Z ->
  exists t,
    get_screen env dev h w = Ok t
    /\ length (t_sizes t) = 4
    /\ t_sizes t = [1; 3; Z.to_nat w; Z.to_nat h]
    /\ (h <> w -> t_sizes t <> [1; 3; Z.to_nat h; Z.to_nat w]).
Proof.
  intros HC Hdev Hrender Hs Hh Hw.
  destruct (get_screen_Ok env dev h w frame H0 W0 3 HC Hdev Hrender Hs Hh Hw)
    as (r & _ & Hgs).
  eexists. split; [exact Hgs |]. simpl.
  repeat split. intros Hne Heq. injection Heq as Heq _. lia.
Qed.

(** [permute(2,1,0)] on a tensor of shape (h, w, c): a view of the same
    storage, of shape (c, w, h), whose element (k, j, i) is the element
    (i, j, k) of the tensor. *)
Lemma permute_210_view (A : Tensor V) (h w c : nat) :
  t_sizes A = [h; w; c] ->
  exists P,
    permute A [2; 1; 0] = Ok P
    /\ t_sizes P = [c; w; h]
    /\ t_storage P = t_storage A
    /\ forall i j k, tget P [k; j; i] = tget A [i; j; k].
Proof.
  intro Hs. unfold permute. rewrite Hs.
  change (is_permutation (length [h; w; c]) [2; 1; 0]) with true.
  cbv iota. eexists. split; [reflexivity |].
  cbn [t_sizes t_storage t_offset t_strides map nth].
  repeat split. intros i j k. unfold tget.
  cbn [t_sizes t_storage t_offset t_strides].
  rewrite Hs, in_bounds_rev3, flat_index_rev3. reflexivity.
Qed.

(** C2. The axis-reordering step of [get_screen] is a permutation of the
    axes of the tensor A that holds the resized array, from (height, width,
    channels) to (channels, width, height). In every call that returns, A
    has some shape (h, w, c); the step yields a view P of shape (c, w, h)
    on the very storage of A, and so is the returned tensor, of shape
    (1, c, w, h): no value is resampled or changed. For all valid i < h,
    j < w, k < c the element of P at (k, j, i), which is the element of the
    returned tensor at (0, k, j, i), is the element of A at (i, j, k). *)
Theorem get_screen_reorders_axes (env : Env V) (dev : device) (h w : Z)
        (t : Tensor V) :
  get_screen env dev h w = Ok t ->
  exists frame r A P U hh ww cc,
    render env "rgb_array" = Ok frame
    /\ resize frame (h, w) false = Ok r
    /\ torch_Tensor r = Ok A
    /\ t_sizes A = [hh; ww; cc]
    /\ permute A [2; 1; 0] = Ok P
    /\ unsqueeze P 0 = Ok U
    /\ tensor_to U dev = Ok t
    /\ t_sizes P = [cc; ww; hh]
    /\ t_storage P = t_storage A
    /\ t_sizes t = [1; cc; ww; hh]
    /\ t_storage t = t_storage A
    /\ forall i j k,
         i < hh -> j < ww -> k < cc ->
         tget P [k; j; i] = tget A [i; j; k]
         /\ tget t [0; k; j; i] = tget A [i; j; k].
Proof.
  intro Hgs.
  destruct (get_screen_Ok_inv _ _ _ _ _ Hgs)
    as (frame & r & Hrender & Hresize & Hrest).
  destruct (after_resize_Ok_inv _ _ _ Hrest)
    as (hh & ww & cc & Hs & Hd & Hdev).
  rewrite (after_resize_Ok _ _ _ _ _ Hs Hd Hdev) in Hrest.
  injection Hrest as <-.
  assert (HA : torch_Tensor r
               = Ok {| t_dtype := dt_float32;
                       t_device := cpu;
                       t_sizes := [hh; ww; cc];
                       t_strides := c_strides [hh; ww; cc];
                       t_offset := 0;
                       t_storage := map (float32_of (a_dtype r)) (a_data r) |}).
  { unfold torch_Tensor. rewrite Hd, Hs. reflexivity. }
  exists frame, r. eexists. eexists. eexists. exists hh, ww, cc.
  split; [exact Hrender |]. split; [exact Hresize |].
  split; [exact HA |]. split; [reflexivity |].
  split; [reflexivity |]. split; [reflexivity |].
  split; [unfold tensor_to; rewrite Hdev; reflexivity |].
  split; [reflexivity |]. split; [reflexivity |].
  split; [reflexivity |]. split; [reflexivity |].
  intros i j k Hi Hj Hk.
  apply Nat.ltb_lt in Hi, Hj, Hk.
  unfold tget. simpl. rewrite Hi, Hj, Hk. simpl.
  split; f_equal; lia.
Qed.

(** C3. The resize step is invoked with anti-aliasing disabled. On a
    rendered frame the call is the resize of that frame to (h, w) with the
    smoothing filter off, followed by the tensor steps; what the resize
    routine computes with the filter on is never used; and, for a resize
    routine that meets its contract, the array that reaches the tensor is
    that reference resize, of shape exactly (h, w, C) with the channel
    count C of the frame. *)
Theorem get_screen_resize_no_anti_aliasing (env : Env V) (dev : device)
        (h w : Z) (frame : ndarray V) :
  render env "rgb_array" = Ok frame ->
  get_screen env dev h w
  = (r <- resize frame (h, w) false ;; after_resize dev r)%py
  /\ (forall L' : Libraries V,
        (forall a s, @resize V L' a s false = @resize V L a s false) ->
        @float32_of V L' = @float32_of V L ->
        @device_error V L' = @device_error V L ->
        @get_screen V L' env dev h w = @get_screen V L env dev h w)
  /\ (ResizeContract resize ->
      forall H0 W0 C t,
        a_shape frame = [H0; W0; C] ->
        get_screen env dev h w = Ok t ->
        exists r,
          resize frame (h, w) false = Ok r
          /\ a_shape r = [Z.to_nat h; Z.to_nat w; C]
          /\ t_sizes t = [1; C; Z.to_nat w; Z.to_nat h]
          /\ t_storage t = map (float32_of (a_dtype r)) (a_data r)).
Proof.
  intro Hrender. split; [| split].
  - rewrite get_screen_unfold, Hrender. reflexivity.
  - intros L' Hres Hf Hd.
    unfold get_screen. rewrite Hrender. simpl. rewrite Hres.
    destruct (resize frame (h, w) false) as [r |]; simpl; [| reflexivity].
    unfold torch_Tensor, tensor_to. rewrite Hf, Hd. reflexivity.
  - intros HC H0 W0 C t Hs Hgs.
    destruct (get_screen_Ok_form _ _ _ _ _ Hgs)
      as (frame' & r & hh & ww & cc & Hrender' & Hresize & Hrs & _ & Ht).
    rewrite Hrender in Hrender'. injection Hrender' as <-.
    destruct (@resize_shape V resize HC frame h w false r H0 W0 C Hs Hresize)
      as (Hrs' & _).
    rewrite Hrs in Hrs'. injection Hrs' as -> -> ->.
    exists r. subst t. simpl. auto.
Qed.

(** C4. A call with height 0 or width 0 is not validated by [get_screen]
    itself. It raises only when one of its steps raises: the error of the
    render step, or the error the resize step raises for that target, is
    the outcome of the call and no tensor is returned. When the resize step
    returns an array for the zero target, of shape (h, w, C) as its contract
    says, and the device is available, the call returns a tensor of shape
    (1, C, w, h), which has an empty spatial axis. *)
Theorem get_screen_zero_target (env : Env V) (dev : device) (h w : Z) :
  h = 0%Z \/ w = 0%Z ->
  (forall e,
     get_screen env dev h w = Err e ->
     render env "rgb_array" = Err e
     \/ exists frame,
          render env "rgb_array" = Ok frame
          /\ (resize frame (h, w) false = Err e
              \/ exists r,
                   resize frame (h, w) false = Ok r
                   /\ after_resize dev r = Err e))
  /\ (forall frame e,
        render env "rgb_array" = Ok frame ->
        resize frame (h, w) false = Err e ->
        get_screen env dev h w = Err e
        /\ forall t, get_screen env dev h w <> Ok t)
  /\ (ResizeContract resize ->
      forall frame H0 W0 C r,
        render env "rgb_array" = Ok frame ->
        a_shape frame = [H0; W0; C] ->
        resize frame (h, w) false = Ok r ->
        device_error dev = None ->
        exists t,
          get_screen env dev h w = Ok t
          /\ t_sizes t = [1; C; Z.to_nat w; Z.to_nat h]
          /\ (Z.to_nat w = 0 \/ Z.to_nat h = 0)
          /\ t_storage t = map (float32_of (a_dtype r)) (a_data r)).
Proof.
  intro Hz. split; [| split].
  - intros e. rewrite get_screen_unfold.
    destruct (render env "rgb_array") as [frame | e0]; cbn [bind];
      [| intro H; left; congruence].
    intro H. right. exists frame. split; [reflexivity |].
    destruct (resize frame (h, w) false) as [r | e1]; cbn [bind] in H;
      [right; exists r; auto | left; congruence].
  - intros frame e Hrender Hresize.
    assert (He : get_screen env dev h w = Err e).
    { rewrite get_screen_unfold, Hrender. cbn [bind]. rewrite Hresize.
      reflexivity. }
    split; [exact He |]. intros t Ht. congruence.
  - intros HC frame H0 W0 C r Hrender Hs Hresize Hdev.
    destruct (@resize_shape V resize HC frame h w false r H0 W0 C Hs Hresize)
      as (Hrs & Hfl).
    eexists. split; [| split; [| split]].
    + rewrite get_screen_unfold, Hrender. cbn [bind]. rewrite Hresize.
      cbn [bind]. apply (after_resize_Ok _ _ _ _ _ Hrs); [| exact Hdev].
      destruct (a_dtype r); simpl in *; congruence.
    + reflexivity.
    + destruct Hz as [-> | ->]; [right | left]; reflexivity.
    + reflexivity.
Qed.

(** C5. The values of the returned tensor are not rescaled or clamped by
    the function: the storage of the tensor is, element for element, the
    data of the array the resize step produced from the rendered frame,
    each value only rounded to the element type of the tensor, and the
    element at index (0, c, x, y) is the intensity of the resized array at
    (y, x, c). *)
Theorem get_screen_values_unscaled (env : Env V) (dev : device) (h w : Z)
        (t : Tensor V) :
  get_screen env dev h w = Ok t ->
  exists frame r,
    render env "rgb_array" = Ok frame
    /\ resize frame (h, w) false = Ok r
    /\ t_storage t = map (float32_of (a_dtype r)) (a_data r)
    /\ forall y x c,
         tget t [0; c; x; y]
         = option_map (float32_of (a_dtype r)) (aget r [y; x; c]).
Proof.
  intro Hgs.
  destruct (get_screen_Ok_form _ _ _ _ _ Hgs)
    as (frame & r & hh & ww & cc & Hrender & Hresize & Hrs & _ & Ht).
  exists frame, r. subst t. repeat split; auto.
  intros y x c. unfold tget, aget.
  cbn [t_sizes t_storage t_offset t_strides]. rewrite Hrs.
  replace (in_bounds [1; cc; ww; hh] [0; c; x; y])
    with (in_bounds [hh; ww; cc] [y; x; c])
    by (simpl; destruct (y <? hh), (x <? ww), (c <? cc); reflexivity).
  destruct (in_bounds [hh; ww; cc] [y; x; c]); [| reflexivity].
  rewrite nth_error_map. do 2 f_equal. simpl. lia.
Qed.

(** C7. For every successful call the returned tensor resides on the
    device that was passed: the last step transfers the tensor to that
    device and its result is what the function returns. *)
Theorem get_screen_on_device (env : Env V) (dev : device) (h w : Z)
        (t : Tensor V) :
  get_screen env dev h w = Ok t ->
  t_device t = dev
  /\ exists t', tensor_to t' dev = Ok t.
Proof.
  intro Hgs.
  destruct (get_screen_Ok_form _ _ _ _ _ Hgs)
    as (frame & r & hh & ww & cc & _ & _ & _ & Hdev & Ht).
  subst t. split; [reflexivity |].
  eexists {| t_dtype := _; t_device := cpu; t_sizes := _; t_strides := _;
             t_offset := _; t_storage := _ |}.
  unfold tensor_to. rewrite Hdev. reflexivity.
Qed.

(** C8. A call without height and width takes the defaults 80 and 80: it
    is the call with h = 80 and w = 80, and for a renderer producing C
    channels the result has shape (1, C, 80, 80), provided the resize
    routine meets its contract and the device is available. *)
Theorem get_screen_default_shape (env : Env V) (dev : device)
        (frame : ndarray V) (H0 W0 C : nat) :
  ResizeContract resize ->
  device_error dev = None ->
  render env "rgb_array" = Ok frame ->
  a_shape frame = [H0; W0; C] ->
  get_screen_call env dev None None = get_screen env dev 80 80
  /\ exists t,
       get_screen_call env dev None None = Ok t
       /\ t_sizes t = [1; C; 80; 80].
Proof.
  intros HC Hdev Hrender Hs. split; [reflexivity |].
  destruct (get_screen_Ok env dev 80 80 frame H0 W0 C HC Hdev Hrender Hs)
    as (r & _ & Hgs); [lia | lia |].
  eexists. split; [exact Hgs | reflexivity].
Qed.

(** C9. [get_screen] catches, wraps and translates no error: an exception
    raised by the render step, the resize step, the conversion, the
    permutation, the added axis or the transfer to the device is the
    outcome of the call, unchanged, and then no tensor is returned; and
    every exception of a call is the exception of one of these steps. *)
Theorem get_screen_propagates_errors (env : Env V) (dev : device)
        (h w : Z) (e : exn) :
  (render env "rgb_array" = Err e -> get_screen env dev h w = Err e)
  /\ (forall k0,
        render env "rgb_array" = Ok k0 ->
        resize k0 (h, w) false = Err e ->
        get_screen env dev h w = Err e)
  /\ (forall k0 k1,
        render env "rgb_array" = Ok k0 ->
        resize k0 (h, w) false = Ok k1 ->
        torch_Tensor k1 = Err e ->
        get_screen env dev h w = Err e)
  /\ (forall k0 k1 k2,
        render env "rgb_array" = Ok k0 ->
        resize k0 (h, w) false = Ok k1 ->
        torch_Tensor k1 = Ok k2 ->
        permute k2 [2; 1; 0] = Err e ->
        get_screen env dev h w = Err e)
  /\ (forall k0 k1 k2 k3,
        render env "rgb_array" = Ok k0 ->
        resize k0 (h, w) false = Ok k1 ->
        torch_Tensor k1 = Ok k2 ->
        permute k2 [2; 1; 0] = Ok k3 ->
        unsqueeze k3 0 = Err e ->
        get_screen env dev h w = Err e)
  /\ (forall k0 k1 k2 k3 k4,
        render env "rgb_array" = Ok k0 ->
        resize k0 (h, w) false = Ok k1 ->
        torch_Tensor k1 = Ok k2 ->
        permute k2 [2; 1; 0] = Ok k3 ->
        unsqueeze k3 0 = Ok k4 ->
        tensor_to k4 dev = Err e ->
        get_screen env dev h w = Err e)
  /\ (get_screen env dev h w = Err e ->
      (forall t, get_screen env dev h w <> Ok t)
      /\ (render env "rgb_array" = Err e
          \/ exists k0,
               render env "rgb_array" = Ok k0
               /\ (resize k0 (h, w) false = Err e
                   \/ exists k1,
                        resize k0 (h, w) false = Ok k1
                        /\ (torch_Tensor k1 = Err e
                            \/ exists k2,
                                 torch_Tensor k1 = Ok k2
                                 /\ (permute k2 [2; 1; 0] = Err e
                                     \/ exists k3,
                                          permute k2 [2; 1; 0] = Ok k3
                                          /\ (unsqueeze k3 0 = Err e
                                              \/ exists k4,
                                                   unsqueeze k3 0 = Ok k4
                                                   /\ tensor_to k4 dev
                                                      = Err e)))))).
Proof.
  unfold get_screen.
  repeat split.
  - intros ->. reflexivity.
  - intros k0 -> Hr. cbn [bind]. rewrite Hr. reflexivity.
  - intros k0 k1 -> Hr Hc. cbn [bind]. rewrite Hr. cbn [bind]. rewrite Hc.
    reflexivity.
  - intros k0 k1 k2 -> Hr Hc Hp. cbn [bind]. rewrite Hr. cbn [bind]. rewrite Hc.
    cbn [bind]. rewrite Hp. reflexivity.
  - intros k0 k1 k2 k3 -> Hr Hc Hp Hu. cbn [bind]. rewrite Hr. cbn [bind].
    rewrite Hc. cbn [bind]. rewrite Hp. cbn [bind]. rewrite Hu. reflexivity.
  - intros k0 k1 k2 k3 k4 -> Hr Hc Hp Hu Ht. cbn [bind]. rewrite Hr. cbn [bind].
    rewrite Hc. cbn [bind]. rewrite Hp. cbn [bind]. rewrite Hu. cbn [bind]. rewrite Ht.
    reflexivity.
  - intros t Ht. congruence.
  - destruct (render env "rgb_array") as [k0 | e0]; cbn [bind] in *;
      [right; exists k0; split; [reflexivity |] | left; congruence].
    destruct (resize k0 (h, w) false) as [k1 | e1]; cbn [bind] in *;
      [right; exists k1; split; [reflexivity |] | left; congruence].
    destruct (torch_Tensor k1) as [k2 | e2]; cbn [bind] in *;
      [right; exists k2; split; [reflexivity |] | left; congruence].
    destruct (permute k2 [2; 1; 0]) as [k3 | e3]; cbn [bind] in *;
      [right; exists k3; split; [reflexivity |] | left; congruence].
    destruct (unsqueeze k3 0) as [k4 | e4]; cbn [bind] in *;
      [right; exists k4; split; [reflexivity |] | left; congruence].
    destruct (tensor_to k4 dev) as [k5 | e5]; cbn [bind] in *; congruence.
Qed.

(** C10. The conversion step builds a tensor of the default element type,
    32-bit floating point, whatever the element type of the array, and so
    does every successful call of [get_screen], whether the renderer
    produced integer or floating pixel values. *)
Theorem get_screen_dtype_float32 (env : Env V) (dev : device) (h w : Z) :
  (forall a t, torch_Tensor a = Ok t -> t_dtype t = dt_float32)
  /\ (forall t, get_screen env dev h w = Ok t -> t_dtype t = dt_float32).
Proof.
  split.
  - intros a t. unfold torch_Tensor.
    destruct (torch_supported (a_dtype a)); [| discriminate].
    intro H. injection H as <-. reflexivity.
  - intros t Hgs.
    destruct (get_screen_Ok_form _ _ _ _ _ Hgs)
      as (frame & r & hh & ww & cc & _ & _ & _ & _ & Ht).
    subst t. reflexivity.
Qed.

End Properties.

(** ** The sample collaborators *)

Lemma nn_resize_contract : ResizeContract nn_resize.
Proof.
  split.
  - intros a h w aa r H0 W0 C Hs. unfold nn_resize.
    destruct ((h <=? 0) || (w <=? 0))%Z; [discriminate |].
    rewrite Hs. intro H. injection H as <-. simpl. auto.
  - intros a h w aa H0 W0 C Hs Hh Hw. unfold nn_resize.
    replace ((h <=? 0) || (w <=? 0))%Z with false
      by (symmetry; apply orb_false_iff; split; apply Z.leb_gt; assumption).
    rewrite Hs. eexists. reflexivity.
Qed.

(** The sample call. *)
Example get_screen_sample :
  @get_screen Z sample_libs sample_env cpu 1 2 = Ok sample_screen.
Proof. reflexivity. Qed.

(** With a resize routine that returns an array for a zero target, a call
    with height 0 raises nothing and returns a tensor with an empty last
    axis; so it is not the case that every call with a zero target
    raises. *)
Lemma get_screen_zero_target_returns :
  (exists t,
     @get_screen Z lax_libs sample_env cpu 0 2 = Ok t
     /\ t_sizes t = [1; 3; 2; 0]
     /\ t_storage t = [])
  /\ ~ (forall (L : Libraries Z) (env : Env Z) (dev : device) (h w : Z),
          h = 0%Z \/ w = 0%Z ->
          exists e, @get_screen Z L env dev h w = Err e).
Proof.
  split.
  - eexists. repeat split; reflexivity.
  - intro H.
    destruct (H lax_libs sample_env cpu 0%Z 2%Z (or_introl eq_refl))
      as (e & He).
    discriminate He.
Qed.

(** ** The claims on the sample collaborators *)

Lemma get_screen_shape_witness :
  ResizeContract (@resize Z sample_libs)
  /\ render sample_env "rgb_array" = Ok sample_frame
  /\ a_shape sample_frame = [2; 2; 3]
  /\ exists t,
       @get_screen Z sample_libs sample_env cpu 1 2 = Ok t
       /\ length (t_sizes t) = 4
       /\ t_sizes t = [1; 3; Z.to_nat 2; Z.to_nat 1]
       /\ (1%Z <> 2%Z -> t_sizes t <> [1; 3; Z.to_nat 1; Z.to_nat 2]).
Proof.
  split; [exact nn_resize_contract |].
  split; [reflexivity |]. split; [reflexivity |].
  apply (@get_screen_shape Z sample_libs sample_env cpu 1 2 sample_frame 2 2);
    [exact nn_resize_contract | reflexivity | reflexivity | reflexivity
    | lia | lia].
Defined.

Lemma get_screen_reorders_axes_witness :
  exists frame r A P U hh ww cc,
    render sample_env "rgb_array" = Ok frame
    /\ nn_resize frame (1, 2)%Z false = Ok r
    /\ @torch_Tensor Z sample_libs r = Ok A
    /\ t_sizes A = [hh; ww; cc]
    /\ permute A [2; 1; 0] = Ok P
    /\ unsqueeze P 0 = Ok U
    /\ @tensor_to Z sample_libs U cpu = Ok sample_screen
    /\ t_sizes P = [cc; ww; hh]
    /\ t_storage P = t_storage A
    /\ t_sizes sample_screen = [1; cc; ww; hh]
    /\ t_storage sample_screen = t_storage A
    /\ forall i j k,
         i < hh -> j < ww -> k < cc ->
         tget P [k; j; i] = tget A [i; j; k]
         /\ tget sample_screen [0; k; j; i] = tget A [i; j; k].
Proof.
  apply (@get_screen_reorders_axes Z sample_libs sample_env cpu 1 2
           sample_screen).
  reflexivity.
Defined.

Lemma get_screen_resize_no_anti_aliasing_witness :
  @get_screen Z sample_libs sample_env cpu 1 2
  = (r <- nn_resize sample_frame (1, 2)%Z false ;;
     @after_resize Z sample_libs cpu r)%py
  /\ (forall L' : Libraries Z,
        (forall a s, @resize Z L' a s false = nn_resize a s false) ->
        @float32_of Z L' = keep_value ->
        @device_error Z L' = one_gpu ->
        @get_screen Z L' sample_env cpu 1 2
        = @get_screen Z sample_libs sample_env cpu 1 2)
  /\ (ResizeContract nn_resize ->
      forall H0 W0 C t,
        a_shape sample_frame = [H0; W0; C] ->
        @get_screen Z sample_libs sample_env cpu 1 2 = Ok t ->
        exists r,
          nn_resize sample_frame (1, 2)%Z false = Ok r
          /\ a_shape r = [Z.to_nat 1; Z.to_nat 2; C]
          /\ t_sizes t = [1; C; Z.to_nat 2; Z.to_nat 1]
          /\ t_storage t = map (keep_value (a_dtype r)) (a_data r)).
Proof.
  apply (@get_screen_resize_no_anti_aliasing Z sample_libs sample_env cpu 1 2
           sample_frame).
  reflexivity.
Defined.

Lemma get_screen_zero_target_witness :
  (forall e,
     @get_screen Z lax_libs sample_env cpu 0 2 = Err e ->
     render sample_env "rgb_array" = Err e
     \/ exists frame,
          render sample_env "rgb_array" = Ok frame
          /\ (lax_resize frame (0, 2)%Z false = Err e
              \/ exists r,
                   lax_resize frame (0, 2)%Z false = Ok r
                   /\ @after_resize Z lax_libs cpu r = Err e))
  /\ (forall frame e,
        render sample_env "rgb_array" = Ok frame ->
        lax_resize frame (0, 2)%Z false = Err e ->
        @get_screen Z lax_libs sample_env cpu 0 2 = Err e
        /\ forall t, @get_screen Z lax_libs sample_env cpu 0 2 <> Ok t)
  /\ (ResizeContract lax_resize ->
      forall frame H0 W0 C r,
        render sample_env "rgb_array" = Ok frame ->
        a_shape frame = [H0; W0; C] ->
        lax_resize frame (0, 2)%Z false = Ok r ->
        one_gpu cpu = None ->
        exists t,
          @get_screen Z lax_libs sample_env cpu 0 2 = Ok t
          /\ t_sizes t = [1; C; Z.to_nat 2; Z.to_nat 0]
          /\ (Z.to_nat 2 = 0 \/ Z.to_nat 0 = 0)
          /\ t_storage t = map (keep_value (a_dtype r)) (a_data r)).
Proof.
  apply (@get_screen_zero_target Z lax_libs sample_env cpu 0 2).
  left. reflexivity.
Defined.

Lemma get_screen_values_unscaled_witness :
  exists frame r,
    render sample_env "rgb_array" = Ok frame
    /\ nn_resize frame (1, 2)%Z false = Ok r
    /\ t_storage sample_screen = map (keep_value (a_dtype r)) (a_data r)
    /\ forall y x c,
         tget sample_screen [0; c; x; y]
         = option_map (keep_value (a_dtype r)) (aget r [y; x; c]).
Proof.
  apply (@get_screen_values_unscaled Z sample_libs sample_env cpu 1 2
           sample_screen).
  reflexivity.
Defined.

Lemma get_screen_on_device_witness :
  t_device
    {| t_dtype := dt_float32;
       t_device := cuda 0;
       t_sizes := [1; 3; 2; 1];
       t_strides := [3; 1; 3; 6];
       t_offset := 0;
       t_storage := [10; 20; 30; 40; 50; 60]%Z |} = cuda 0
  /\ exists t',
       @tensor_to Z sample_libs t' (cuda 0)
       = Ok {| t_dtype := dt_float32;
               t_device := cuda 0;
               t_sizes := [1; 3; 2; 1];
               t_strides := [3; 1; 3; 6];
               t_offset := 0;
               t_storage := [10; 20; 30; 40; 50; 60]%Z |}.
Proof.
  apply (@get_screen_on_device Z sample_libs sample_env (cuda 0) 1 2).
  reflexivity.
Defined.

Lemma get_screen_default_shape_witness :
  @get_screen_call Z sample_libs sample_env cpu None None
  = @get_screen Z sample_libs sample_env cpu 80 80
  /\ exists t,
       @get_screen_call Z sample_libs sample_env cpu None None = Ok t
       /\ t_sizes t = [1; 3; 80; 80].
Proof.
  apply (@get_screen_default_shape Z sample_libs sample_env cpu sample_frame
           2 2 3);
    [exact nn_resize_contract | reflexivity | reflexivity | reflexivity].
Defined.

Lemma get_screen_propagates_errors_witness :
  @get_screen Z sample_libs closed_env cpu 1 2
  = Err (Raise "RuntimeError" "environment is closed")
  /\ @get_screen Z sample_libs sample_env cpu 0 2
     = Err (Raise "ValueError" "output shape must be positive")
  /\ @get_screen Z sample_libs gray_env cpu 1 2
     = Err (Raise "RuntimeError" "permute: dims do not match the tensor")
  /\ @get_screen Z sample_libs sample_env (cuda 3) 1 2
     = Err (Raise "RuntimeError" "CUDA error: invalid device ordinal").
Proof.
  split; [| split; [| split]].
  - apply (proj1 (@get_screen_propagates_errors Z sample_libs closed_env cpu
                    1 2 (Raise "RuntimeError" "environment is closed"))).
    reflexivity.
  - destruct (@get_screen_propagates_errors Z sample_libs sample_env cpu 0 2
                (Raise "ValueError" "output shape must be positive"))
      as (_ & Hresize & _).
    apply (Hresize sample_frame); reflexivity.
  - destruct (@get_screen_propagates_errors Z sample_libs gray_env cpu 1 2
                (Raise "RuntimeError" "permute: dims do not match the tensor"))
      as (_ & _ & _ & Hpermute & _).
    eapply Hpermute; reflexivity.
  - destruct (@get_screen_propagates_errors Z sample_libs sample_env
                (cuda 3) 1 2
                (Raise "RuntimeError" "CUDA error: invalid device ordinal"))
      as (_ & _ & _ & _ & _ & Hto & _).
    eapply Hto; reflexivity.
Defined.

Lemma get_screen_dtype_float32_witness :
  a_dtype sample_frame = dt_uint8
  /\ t_dtype sample_screen = dt_float32.
Proof.
  split; [reflexivity |].
  apply (proj2 (@get_screen_dtype_float32 Z sample_libs sample_env cpu 1 2)).
  reflexivity.
Defined.

(** ** Further properties of [get_screen] *)

Lemma in_bounds4_inv (n0 n1 n2 n3 : nat) (idx : list nat) :
  in_bounds [n0; n1; n2; n3] idx = true ->
  exists b c x y,
    idx = [b; c; x; y] /\ b < n0 /\ c < n1 /\ x < n2 /\ y < n3.
Proof.
  destruct idx as [| b [| c [| x [| y [| z rest]]]]]; simpl; intro H;
    repeat (apply andb_true_iff in H; destruct H as [?Hlt H]);
    try discriminate.
  exists b, c, x, y.
  repeat split; try reflexivity; apply Nat.ltb_lt; assumption.
Qed.

(** Row-major addressing of (y, x, c) in an array of shape (hh, ww, cc)
    stays within the array and is one-to-one. *)
Lemma row_major_lt (c x y cc ww hh : nat) :
  c < cc -> x < ww -> y < hh ->
  c + x * cc + y * (ww * cc) < hh * (ww * cc).
Proof.
  intros Hc Hx Hy.
  assert (H1 : (x + 1) * cc <= ww * cc) by (apply Nat.mul_le_mono_r; lia).
  assert (H2 : (y + 1) * (ww * cc) <= hh * (ww * cc))
    by (apply Nat.mul_le_mono_r; lia).
  lia.
Qed.

Lemma row_major_inj (c1 x1 y1 c2 x2 y2 cc ww : nat) :
  c1 < cc -> c2 < cc -> x1 < ww -> x2 < ww ->
  c1 + x1 * cc + y1 * (ww * cc) = c2 + x2 * cc + y2 * (ww * cc) ->
  c1 = c2 /\ x1 = x2 /\ y1 = y2.
Proof.
  intros Hc1 Hc2 Hx1 Hx2 Heq.
  assert (Hin1 : c1 + x1 * cc < ww * cc).
  { assert ((x1 + 1) * cc <= ww * cc) by (apply Nat.mul_le_mono_r; lia).
    lia. }
  assert (Hin2 : c2 + x2 * cc < ww * cc).
  { assert ((x2 + 1) * cc <= ww * cc) by (apply Nat.mul_le_mono_r; lia).
    lia. }
  destruct (Nat.div_mod_unique (ww * cc) y1 y2 (c1 + x1 * cc) (c2 + x2 * cc)
              Hin1 Hin2) as (Hy & Hrest); [lia |].
  destruct (Nat.div_mod_unique cc x1 x2 c1 c2 Hc1 Hc2) as (Hx & Hc); [lia |].
  auto.
Qed.

Section Further.
Context {V : Type} {L : Libraries V}.

(** A call returns a tensor exactly when the render and the resize steps
    return, the resized array has an element type the tensor library
    converts and exactly three axes, and the device is available. *)
Theorem get_screen_returns_iff (env : Env V) (dev : device) (h w : Z) :
  (exists t, get_screen env dev h w = Ok t)
  <-> exists frame r,
        render env "rgb_array" = Ok frame
        /\ resize frame (h, w) false = Ok r
        /\ torch_supported (a_dtype r) = true
        /\ length (a_shape r) = 3
        /\ device_error dev = None.
Proof.
  split.
  - intros (t & Hgs).
    destruct (get_screen_Ok_inv _ _ _ _ _ Hgs)
      as (frame & r & Hrender & Hresize & Hrest).
    destruct (after_resize_Ok_inv _ _ _ Hrest)
      as (hh & ww & cc & Hs & Hd & Hdev).
    exists frame, r. rewrite Hs. auto.
  - intros (frame & r & Hrender & Hresize & Hd & Hlen & Hdev).
    destruct (length3 _ _ Hlen) as (hh & ww & cc & Hs).
    eexists. rewrite get_screen_unfold, Hrender. cbn [bind].
    rewrite Hresize. cbn [bind].
    apply (after_resize_Ok _ _ _ _ _ Hs Hd Hdev).
Qed.

(** Whatever the resize routine returns, the shape of the returned tensor is
    the shape of the resized array reversed, behind a batch axis of size 1:
    the tensor always has four axes. *)
Theorem get_screen_shape_reversed (env : Env V) (dev : device) (h w : Z)
        (t : Tensor V) :
  get_screen env dev h w = Ok t ->
  exists frame r,
    render env "rgb_array" = Ok frame
    /\ resize frame (h, w) false = Ok r
    /\ t_sizes t = 1 :: rev (a_shape r)
    /\ length (t_sizes t) = 4.
Proof.
  intro Hgs.
  destruct (get_screen_Ok_form _ _ _ _ _ Hgs)
    as (frame & r & hh & ww & cc & Hrender & Hresize & Hs & _ & Ht).
  exists frame, r. subst t. rewrite Hs. simpl. auto.
Qed.

(** A frame without a channel axis (a gray image), or any resized array
    that does not have exactly three axes, makes the call raise a
    RuntimeError at the axis-reordering step, before the device is looked
    at: no tensor is returned even when the device is available. *)
Theorem get_screen_rejects_non_3d (env : Env V) (dev : device) (h w : Z)
        (frame r : ndarray V) :
  render env "rgb_array" = Ok frame ->
  resize frame (h, w) false = Ok r ->
  torch_supported (a_dtype r) = true ->
  length (a_shape r) <> 3 ->
  exists e,
    get_screen env dev h w = Err e
    /\ exn_class e = "RuntimeError"%string
    /\ forall t0, torch_Tensor r = Ok t0 -> permute t0 [2; 1; 0] = Err e.
Proof.
  intros Hrender Hresize Hd Hlen.
  assert (Hp : is_permutation (length (a_shape r)) [2; 1; 0] = false).
  { destruct (is_permutation (length (a_shape r)) [2; 1; 0]) eqn:Hp;
      [| reflexivity].
    apply is_permutation_210 in Hp. contradiction. }
  eexists. split; [| split].
  - unfold get_screen. rewrite Hrender. cbn [bind]. rewrite Hresize.
    cbn [bind]. unfold torch_Tensor. rewrite Hd. cbn [bind].
    unfold permute. cbn [t_sizes]. rewrite Hp. reflexivity.
  - reflexivity.
  - intros t0. unfold torch_Tensor. rewrite Hd. intro H. injection H as <-.
    unfold permute. cbn [t_sizes]. rewrite Hp. reflexivity.
Qed.

(** The device only decides where the tensor is stored: if a call returns
    a tensor for one device, the same call for any other available device
    returns a tensor with the same element type, shape, strides and
    storage, hence the same elements, stored on that device. *)
Theorem get_screen_device_independent (env : Env V) (d1 d2 : device)
        (h w : Z) (t1 : Tensor V) :
  get_screen env d1 h w = Ok t1 ->
  device_error d2 = None ->
  exists t2,
    get_screen env d2 h w = Ok t2
    /\ t_device t2 = d2
    /\ t_dtype t2 = t_dtype t1
    /\ t_sizes t2 = t_sizes t1
    /\ t_strides t2 = t_strides t1
    /\ t_offset t2 = t_offset t1
    /\ t_storage t2 = t_storage t1
    /\ forall idx, tget t2 idx = tget t1 idx.
Proof.
  intros Hgs Hdev2.
  destruct (get_screen_Ok_inv _ _ _ _ _ Hgs)
    as (frame & r & Hrender & Hresize & Hrest).
  destruct (after_resize_Ok_inv _ _ _ Hrest)
    as (hh & ww & cc & Hs & Hd & Hdev1).
  rewrite (after_resize_Ok _ _ _ _ _ Hs Hd Hdev1) in Hrest.
  injection Hrest as <-.
  eexists. split.
  - rewrite get_screen_unfold, Hrender. cbn [bind]. rewrite Hresize.
    cbn [bind]. apply (after_resize_Ok _ _ _ _ _ Hs Hd Hdev2).
  - repeat split.
Qed.

(** When the resized array holds one element per index of its shape,
    reading the returned tensor at an index within its shape never fails:
    every (0, c, x, y) with c, x, y below the sizes of their axes holds an
    element, the element of the resized array at (y, x, c), which exists,
    rounded to the element type of the tensor. *)
Theorem get_screen_elements_present (env : Env V) (dev : device) (h w : Z)
        (t : Tensor V) :
  get_screen env dev h w = Ok t ->
  exists frame r hh ww cc,
    render env "rgb_array" = Ok frame
    /\ resize frame (h, w) false = Ok r
    /\ a_shape r = [hh; ww; cc]
    /\ t_sizes t = [1; cc; ww; hh]
    /\ (array_wf r ->
        forall c x y,
          c < cc -> x < ww -> y < hh ->
          exists v,
            aget r [y; x; c] = Some v
            /\ tget t [0; c; x; y] = Some (float32_of (a_dtype r) v)).
Proof.
  intro Hgs.
  destruct (get_screen_Ok_form _ _ _ _ _ Hgs)
    as (frame & r & hh & ww & cc & Hrender & Hresize & Hs & _ & Ht).
  exists frame, r, hh, ww, cc.
  split; [exact Hrender |]. split; [exact Hresize |].
  split; [exact Hs |]. split; [subst t; reflexivity |].
  intros Hwf c x y Hc Hx Hy.
  unfold array_wf in Hwf. rewrite Hs in Hwf. simpl in Hwf.
  pose proof (row_major_lt c x y cc ww hh Hc Hx Hy) as Hlt.
  destruct (nth_error (a_data r) (c + x * cc + y * (ww * cc))) as [v |] eqn:Hv;
    [| apply nth_error_None in Hv; lia].
  exists v.
  apply Nat.ltb_lt in Hc, Hx, Hy.
  subst t. unfold aget, tget. cbn [t_sizes t_strides t_offset t_storage].
  rewrite Hs. simpl. rewrite Hc, Hx, Hy. simpl.
  split.
  - rewrite <- Hv. f_equal. lia.
  - rewrite nth_error_map.
    replace (c * 1 + (x * (cc * 1) + (y * (ww * (cc * 1)) + 0)))
      with (c + x * cc + y * (ww * cc)) by lia.
    rewrite Hv. reflexivity.
Qed.

(** Distinct valid indices of the returned tensor address distinct cells
    of its storage: the view never makes two elements share a cell. *)
Theorem get_screen_view_injective (env : Env V) (dev : device) (h w : Z)
        (t : Tensor V) (idx1 idx2 : list nat) :
  get_screen env dev h w = Ok t ->
  in_bounds (t_sizes t) idx1 = true ->
  in_bounds (t_sizes t) idx2 = true ->
  t_offset t + flat_index (t_strides t) idx1
  = t_offset t + flat_index (t_strides t) idx2 ->
  idx1 = idx2.
Proof.
  intros Hgs H1 H2.
  destruct (get_screen_Ok_form _ _ _ _ _ Hgs)
    as (frame & r & hh & ww & cc & _ & _ & _ & _ & Ht).
  subst t. cbn [t_sizes t_strides t_offset] in *.
  destruct (in_bounds4_inv _ _ _ _ _ H1)
    as (b1 & c1 & x1 & y1 & -> & Hb1 & Hc1 & Hx1 & Hy1).
  destruct (in_bounds4_inv _ _ _ _ _ H2)
    as (b2 & c2 & x2 & y2 & -> & Hb2 & Hc2 & Hx2 & Hy2).
  simpl. intro Heq.
  assert (b1 = 0) by lia. assert (b2 = 0) by lia. subst b1 b2.
  destruct (row_major_inj c1 x1 y1 c2 x2 y2 cc ww Hc1 Hc2 Hx1 Hx2)
    as (-> & -> & ->); [lia | reflexivity].
Qed.

End Further.

(** The axis-reordering step is its own inverse: on a tensor with three
    axes, [permute(2,1,0)] applied twice gives the tensor back, so the
    (height, width, channels) layout is recovered from the reordered
    tensor by the same call. *)
Theorem permute_210_involution (V : Type) (t : Tensor V) :
  length (t_sizes t) = 3 ->
  length (t_strides t) = 3 ->
  exists p,
    permute t [2; 1; 0] = Ok p
    /\ permute p [2; 1; 0] = Ok t.
Proof.
  intros Hs Hst. destruct t as [dt dv sizes strides off st].
  cbn [t_sizes t_strides] in *.
  destruct (length3 _ _ Hs) as (h & w & c & ->).
  destruct (length3 _ _ Hst) as (s0 & s1 & s2 & ->).
  eexists. split; reflexivity.
Qed.

(** ** The further properties on the sample collaborators *)

Lemma get_screen_shape_reversed_witness :
  exists frame r,
    render sample_env "rgb_array" = Ok frame
    /\ nn_resize frame (1, 2)%Z false = Ok r
    /\ t_sizes sample_screen = 1 :: rev (a_shape r)
    /\ length (t_sizes sample_screen) = 4.
Proof.
  apply (@get_screen_shape_reversed Z sample_libs sample_env cpu 1 2
           sample_screen).
  reflexivity.
Defined.

Lemma get_screen_rejects_non_3d_witness :
  length [1; 2] <> 3
  /\ exists e,
       @get_screen Z sample_libs gray_env cpu 1 2 = Err e
       /\ exn_class e = "RuntimeError"%string
       /\ forall t0,
            @torch_Tensor Z sample_libs
              {| a_dtype := dt_float64;
                 a_shape := [1; 2];
                 a_data := [10; 20]%Z |} = Ok t0 ->
            permute t0 [2; 1; 0] = Err e.
Proof.
  split; [discriminate |].
  apply (@get_screen_rejects_non_3d Z sample_libs gray_env cpu 1 2
           {| a_dtype := dt_uint8;
              a_shape := [2; 2];
              a_data := [10; 20; 30; 40]%Z |}
           {| a_dtype := dt_float64;
              a_shape := [1; 2];
              a_data := [10; 20]%Z |});
    [reflexivity | reflexivity | reflexivity | discriminate].
Defined.

Lemma get_screen_device_independent_witness :
  exists t2,
    @get_screen Z sample_libs sample_env (cuda 0) 1 2 = Ok t2
    /\ t_device t2 = cuda 0
    /\ t_dtype t2 = t_dtype sample_screen
    /\ t_sizes t2 = t_sizes sample_screen
    /\ t_strides t2 = t_strides sample_screen
    /\ t_offset t2 = t_offset sample_screen
    /\ t_storage t2 = t_storage sample_screen
    /\ forall idx, tget t2 idx = tget sample_screen idx.
Proof.
  apply (@get_screen_device_independent Z sample_libs sample_env cpu (cuda 0)
           1 2 sample_screen);
    reflexivity.
Defined.

Lemma get_screen_elements_present_witness :
  exists frame r hh ww cc,
    render sample_env "rgb_array" = Ok frame
    /\ nn_resize frame (1, 2)%Z false = Ok r
    /\ a_shape r = [hh; ww; cc]
    /\ t_sizes sample_screen = [1; cc; ww; hh]
    /\ (array_wf r ->
        forall c x y,
          c < cc -> x < ww -> y < hh ->
          exists v,
            aget r [y; x; c] = Some v
            /\ tget sample_screen [0; c; x; y]
               = Some (keep_value (a_dtype r) v)).
Proof.
  apply (@get_screen_elements_present Z sample_libs sample_env cpu 1 2
           sample_screen).
  reflexivity.
Defined.

Lemma get_screen_view_injective_witness :
  in_bounds (t_sizes sample_screen) [0; 2; 1; 0] = true
  /\ [0; 2; 1; 0] = [0; 2; 1; 0].
Proof.
  split; [reflexivity |].
  apply (@get_screen_view_injective Z sample_libs sample_env cpu 1 2
           sample_screen [0; 2; 1; 0] [0; 2; 1; 0]);
    reflexivity.
Defined.

Lemma permute_210_involution_witness :
  exists p,
    permute sample_tensor [2; 1; 0] = Ok p
    /\ permute p [2; 1; 0] = Ok sample_tensor.
Proof.
  apply (@permute_210_involution Z sample_tensor); reflexivity.
Defined.
